(** * Unity-check evaluation of the "Results" view of app.py

    Shallow embedding of [plotly_and_data_view] (src/app.py, lines 350-414)
    together with the norm constants [NORM_A_MAX], [NORM_B_MAX],
    [NORM_C_MAX] and the spreadsheet calculation
    [calculate_mass_from_spreadsheet].

    Numbers: the Python code works on floats; the development uses exact
    rationals [Q] (the spec speaks of reals).  None of the claims below
    relies on float rounding.

    Effects: the only effectful step of a case is the call to the external
    spreadsheet service, which may raise.  Evaluation runs in a small
    state-and-exception monad whose state is the log of spreadsheet calls
    made so far, so that "no per-case work" and "abort" can be observed. *)

From Stdlib Require Import ZArith QArith Lqa String List Lia DecimalString PeanoNat.
From Stdlib Require PrimFloat FloatOps SpecFloat Uint63.
Import ListNotations.

(** ** Data model *)

(** [NORM_A_MAX = 500], [NORM_B_MAX = 750], [NORM_C_MAX = 1000] (lines 26-28). *)
Definition NORM_A_MAX : Q := 500.
Definition NORM_B_MAX : Q := 750.
Definition NORM_C_MAX : Q := 1000.

(** One row of the [calculate.cases] dynamic array; [norm] is the raw
    string chosen in the [OptionField]. *)
Record case := mk_case { volume : Q; density : Q; norm : string }.

(** [params.calculate]: the cases and the [spreadsheet] boolean. *)
Record calculate_params := mk_params { cases : list case; spreadsheet : bool }.

(** [DataStatus] members used by the view. *)
Inductive DataStatus := SUCCESS | WARNING | ERROR.

(** Exceptions that can leave [plotly_and_data_view]. *)
Inductive exn :=
| NotImplementedError
| UserException (msg : string)
| CalculationServiceError (msg : string).

(** The outer [DataItem] of a case with its [DataGroup] subgroup. *)
Record data_item := mk_item {
  item_label : string;          (* f"Case {i}" *)
  item_value : Q;               (* unity_check *)
  item_status : DataStatus;
  sub_volume : Q;
  sub_density : Q;
  sub_mass : Q;
  sub_norm : string;
  sub_unity_check : Q;
  sub_status : DataStatus }.

(** [PlotlyAndDataResult(fig, data=DataGroup(...))]: the bar chart
    with its x labels, y values and marker colours, and the data items. *)
Record view_result := mk_result {
  fig_x : list string;
  fig_y : list Q;
  fig_color : list string;
  data : list data_item }.

(** ** The evaluation monad: log of spreadsheet calls, and exceptions *)

Definition calls := list (Q * Q).
Definition M (A : Type) := calls -> calls * (exn + A).

Definition ret {A} (a : A) : M A := fun s => (s, inr a).
Definition raise {A} (e : exn) : M A := fun s => (s, inl e).
Definition bind {A B} (m : M A) (k : A -> M B) : M B :=
  fun s => match m s with
           | (s', inl e) => (s', inl e)
           | (s', inr a) => k a s'
           end.

Notation "x <- m ;; k" := (bind m (fun x => k))
  (at level 61, m at next level, right associativity).

(** Python's [a > b] on numbers. *)
Definition Qgt_bool (a b : Q) : bool := negb (Qle_bool a b).

(** f"Case {i}" *)
Definition case_label (i : nat) : string :=
  ("Case " ++ NilZero.string_of_uint (Nat.to_uint i))%string.

Section View.

(** The spreadsheet calculator service: [SpreadsheetCalculation] evaluated
    on the named inputs [volume] and [density], read back at [mass]; an
    opaque external function which either fails with a message (service
    unreachable, malformed sheet, missing named value) or returns the mass. *)
Variable sheet_evaluate : Q -> Q -> string + Q.

(** [calculate_mass_from_spreadsheet(volume, density)] (lines 43-56); the
    call is recorded in the log. *)
Definition calculate_mass_from_spreadsheet (v d : Q) : M Q :=
  fun s => (s ++ [(v, d)],
            match sheet_evaluate v d with
            | inl msg => inl (CalculationServiceError msg)
            | inr mass => inr mass
            end).

(** Lines 358-365: the norm to maximum-mass chain of [if]/[elif]. *)
Definition max_mass_of (n : string) : M Q :=
  if String.eqb n "A" then ret NORM_A_MAX
  else if String.eqb n "B" then ret NORM_B_MAX
  else if String.eqb n "C" then ret NORM_C_MAX
  else raise NotImplementedError.

(** Lines 367-372. *)
Definition compute_mass (use_sheet : bool) (c : case) : M Q :=
  if use_sheet then calculate_mass_from_spreadsheet (volume c) (density c)
  else ret (volume c * density c).

(** Lines 376-384: status and chart colour from the raw unity check. *)
Definition classify (unity_check : Q) : DataStatus * string :=
  if Qgt_bool unity_check 100 then (ERROR, "red"%string)
  else if Qgt_bool unity_check 80 then (WARNING, "orange"%string)
  else (SUCCESS, "green"%string).

(** Body of the [for] loop (lines 358-399) for the case numbered [i]:
    the [graph_data] entry and the [DataItem]. *)
Definition evaluate_case (use_sheet : bool) (i : nat) (c : case)
  : M ((Q * string) * data_item) :=
  max_mass <- max_mass_of (norm c) ;;
  mass <- compute_mass use_sheet c ;;
  let unity_check := mass / max_mass * 100 in
  let '(status, color) := classify unity_check in
  ret ((unity_check, color),
       mk_item (case_label i) unity_check status
               (volume c) (density c) mass (norm c) unity_check status).

(** [for i, case in enumerate(cases, 1)], appending to [graph_data] and
    [data_items]. *)
Fixpoint loop (use_sheet : bool) (i : nat) (cs : list case)
  : M (list (Q * string) * list data_item) :=
  match cs with
  | [] => ret ([], [])
  | c :: cs' =>
      r <- evaluate_case use_sheet i c ;;
      rs <- loop use_sheet (S i) cs' ;;
      ret (fst r :: fst rs, snd r :: snd rs)
  end.

(** [plotly_and_data_view] (lines 356-414). *)
Definition plotly_and_data_view (p : calculate_params) : M view_result :=
  acc <- loop (spreadsheet p) 1 (cases p) ;;
  let graph_data := fst acc in
  let data_items := snd acc in
  let x := map case_label (seq 1 (length graph_data)) in
  match graph_data with
  | [] => raise (UserException "Add at least 1 case.")
  | _ => ret (mk_result x (map fst graph_data) (map snd graph_data) data_items)
  end.

(** One request: start with an empty call log. *)
Definition run_view (p : calculate_params) : calls * (exn + view_result) :=
  plotly_and_data_view p [].

End View.

(** Norms offered by the [OptionField] (lines 178-182). *)
Definition valid_norm (n : string) : bool :=
  (String.eqb n "A" || String.eqb n "B" || String.eqb n "C")%bool.

(** The input/output pairs of the spreadsheet calls a list of cases makes. *)
Definition sheet_inputs (cs : list case) : calls :=
  map (fun c => (volume c, density c)) cs.

(** ** General lemmas about the monad and the per-case step *)

Lemma bind_inr {A B} (m : M A) (k : A -> M B) s s' b :
  bind m k s = (s', inr b) ->
  exists s1 a, m s = (s1, inr a) /\ k a s1 = (s', inr b).
Proof.
  unfold bind. destruct (m s) as [s1 [e|a]]; intros H.
  - discriminate H.
  - exists s1, a. split; [reflexivity | exact H].
Qed.

Lemma bind_inl_left {A B} (m : M A) (k : A -> M B) s s1 e :
  m s = (s1, inl e) -> bind m k s = (s1, inl e).
Proof. unfold bind. intros ->. reflexivity. Qed.

Lemma bind_inr_left {A B} (m : M A) (k : A -> M B) s s1 a :
  m s = (s1, inr a) -> bind m k s = k a s1.
Proof. unfold bind. intros ->. reflexivity. Qed.

Lemma max_mass_of_state n s :
  max_mass_of n s = (s, snd (max_mass_of n [])).
Proof.
  unfold max_mass_of.
  destruct (String.eqb n "A"); [reflexivity|].
  destruct (String.eqb n "B"); [reflexivity|].
  destruct (String.eqb n "C"); reflexivity.
Qed.

Lemma valid_norm_cases n :
  valid_norm n = true -> n = "A"%string \/ n = "B"%string \/ n = "C"%string.
Proof.
  unfold valid_norm. intros H.
  repeat rewrite Bool.orb_true_iff in H.
  destruct H as [[H|H]|H]; apply String.eqb_eq in H; subst; auto.
Qed.

Lemma max_mass_of_valid n :
  valid_norm n = true ->
  exists m, max_mass_of n = ret m /\
            (m = 500 \/ m = 750 \/ m = 1000) /\ 0 < m.
Proof.
  intros H. apply valid_norm_cases in H.
  destruct H as [ -> | [ -> | -> ] ].
  - exists 500. split; [reflexivity|]. split; [auto|reflexivity].
  - exists 750. split; [reflexivity|]. split; [auto|reflexivity].
  - exists 1000. split; [reflexivity|]. split; [auto|reflexivity].
Qed.

Lemma evaluate_case_inv sheet b i c s s' g it :
  evaluate_case sheet b i c s = (s', inr (g, it)) ->
  exists m mass,
    max_mass_of (norm c) s = (s, inr m) /\
    compute_mass sheet b c s = (s', inr mass) /\
    g = (mass / m * 100, snd (classify (mass / m * 100))) /\
    it = mk_item (case_label i) (mass / m * 100)
                 (fst (classify (mass / m * 100)))
                 (volume c) (density c) mass (norm c) (mass / m * 100)
                 (fst (classify (mass / m * 100))).
Proof.
  unfold evaluate_case. intros H.
  apply bind_inr in H. destruct H as [s1 [m [Hm H]]].
  rewrite max_mass_of_state in Hm. injection Hm as <- Hm.
  apply bind_inr in H. destruct H as [s2 [mass [Hc H]]].
  exists m, mass. rewrite max_mass_of_state, <- Hm.
  destruct (classify (mass / m * 100)) as [st col] eqn:E.
  unfold ret in H. injection H as <- <-.
  simpl. repeat split; auto.
Qed.

(** Python's [>] on [Q]. *)
Lemma Qgt_bool_true a b : Qgt_bool a b = true <-> b < a.
Proof.
  unfold Qgt_bool. rewrite Bool.negb_true_iff. split.
  - intros H. apply Qnot_le_lt. intros H'.
    apply Qle_bool_iff in H'. congruence.
  - intros H. destruct (Qle_bool a b) eqn:E; [|reflexivity].
    apply Qle_bool_iff in E. exfalso. apply (Qlt_not_le _ _ H E).
Qed.

Lemma Qgt_bool_false a b : Qgt_bool a b = false <-> a <= b.
Proof.
  unfold Qgt_bool. rewrite Bool.negb_false_iff. apply Qle_bool_iff.
Qed.

Lemma classify_error u : 100 < u -> classify u = (ERROR, "red"%string).
Proof.
  intros H. unfold classify.
  apply Qgt_bool_true in H. rewrite H. reflexivity.
Qed.

Lemma classify_warning u :
  80 < u -> u <= 100 -> classify u = (WARNING, "orange"%string).
Proof.
  intros H1 H2. unfold classify.
  apply Qgt_bool_false in H2. apply Qgt_bool_true in H1.
  rewrite H2, H1. reflexivity.
Qed.

Lemma classify_success u : u <= 80 -> classify u = (SUCCESS, "green"%string).
Proof.
  intros H. unfold classify.
  assert (H100 : u <= 100).
  { apply Qle_trans with 80; [exact H | discriminate]. }
  apply Qgt_bool_false in H, H100. rewrite H100, H. reflexivity.
Qed.

(** ** Claims *)

(** C1: the status and the chart colour of every case come from the raw
    unity check, tested in the order [> 100] (Error, red), [> 80] (Warning,
    orange), otherwise (Success, green); exactly 100 is Warning and exactly
    80 is Success. *)
Theorem case_status_classification sheet b i c s s' u col it :
  evaluate_case sheet b i c s = (s', inr ((u, col), it)) ->
  item_value it = u /\ sub_unity_check it = u /\
  item_status it = sub_status it /\
  (100 < u -> item_status it = ERROR /\ col = "red"%string) /\
  (80 < u -> u <= 100 -> item_status it = WARNING /\ col = "orange"%string) /\
  (u <= 80 -> item_status it = SUCCESS /\ col = "green"%string) /\
  classify 100 = (WARNING, "orange"%string) /\
  classify 80 = (SUCCESS, "green"%string).
Proof.
  intros H. apply evaluate_case_inv in H.
  destruct H as [m [mass [_ [_ [Hg ->]]]]].
  injection Hg as -> ->. simpl.
  split; [reflexivity|]. split; [reflexivity|]. split; [reflexivity|].
  split; [intros H; rewrite (classify_error _ H); auto|].
  split; [intros H1 H2; rewrite (classify_warning _ H1 H2); auto|].
  split; [intros H; rewrite (classify_success _ H); auto|].
  split; reflexivity.
Qed.

Lemma case_status_classification_witness :
  let sheet := fun v d : Q => @inr string Q (v * d) in
  let c := mk_case (9#10) 1000 "A" in
  evaluate_case sheet false 1 c [] =
    ([], inr ((9000 / 10 / 500 * 100, "red"%string),
              mk_item (case_label 1) (9000 / 10 / 500 * 100) ERROR
                      (9#10) 1000 (9000#10) "A" (9000 / 10 / 500 * 100) ERROR)) /\
  item_status (mk_item (case_label 1) (9000 / 10 / 500 * 100) ERROR
                       (9#10) 1000 (9000#10) "A" (9000 / 10 / 500 * 100) ERROR)
    = ERROR.
Proof.
  intros sheet c.
  assert (E : evaluate_case sheet false 1 c [] =
    ([], inr ((9000 / 10 / 500 * 100, "red"%string),
              mk_item (case_label 1) (9000 / 10 / 500 * 100) ERROR
                      (9#10) 1000 (9000#10) "A" (9000 / 10 / 500 * 100) ERROR)))
    by reflexivity.
  split; [exact E|].
  apply (case_status_classification sheet false 1 c [] [] _ _ _ E).
  reflexivity.
Defined.

(** C2: for either strategy, an empty list of cases raises the user error
    "Add at least 1 case." and no spreadsheet call is made before. *)
Theorem empty_cases_rejected sheet b :
  run_view sheet (mk_params [] b) =
    ([], inl (UserException "Add at least 1 case.")).
Proof. destruct b; reflexivity. Qed.

(** C3: the norm lookup gives 500 for A, 750 for B and 1000 for C. *)
Theorem norm_thresholds :
  max_mass_of "A" = ret 500 /\ max_mass_of "B" = ret 750 /\
  max_mass_of "C" = ret 1000.
Proof. repeat split. Qed.

(** C4: with the Python function (no spreadsheet), the mass of a case is
    exactly [volume * density]; it never fails and makes no external call. *)
Theorem local_mass_exact sheet v d n s :
  0 <= v -> 0 <= d ->
  compute_mass sheet false (mk_case v d n) s = (s, inr (v * d)).
Proof. intros _ _. reflexivity. Qed.

Lemma local_mass_exact_witness :
  compute_mass (fun _ _ => inl "unreachable"%string) false
               (mk_case (3#10) 1000 "A") [] = ([], inr ((3#10) * 1000)).
Proof.
  apply local_mass_exact; unfold Qle; simpl; discriminate.
Defined.

(** C5: the unity check of a case is [mass / max_mass * 100], with the mass
    from the chosen strategy and [max_mass] from the norm lookup; the case
    volume 0.3, density 1000, norm A, computed locally, gives mass 300,
    threshold 500, unity check 60, status Success and colour green. *)
Theorem unity_check_formula :
  (forall sheet b i c s s' g it,
     evaluate_case sheet b i c s = (s', inr (g, it)) ->
     exists m mass,
       max_mass_of (norm c) s = (s, inr m) /\
       compute_mass sheet b c s = (s', inr mass) /\
       sub_mass it = mass /\ item_value it = mass / m * 100 /\
       fst g = mass / m * 100) /\
  (forall sheet,
     exists r it,
       run_view sheet (mk_params [mk_case (3#10) 1000 "A"] false) = ([], inr r) /\
       max_mass_of "A" = ret 500 /\
       data r = [it] /\ sub_mass it == 300 /\ item_value it == 60 /\
       item_status it = SUCCESS /\ fig_y r = [item_value it] /\
       fig_color r = ["green"%string]).
Proof.
  split.
  - intros sheet b i c s s' g it H.
    apply evaluate_case_inv in H.
    destruct H as [m [mass [Hm [Hc [-> ->]]]]].
    exists m, mass. repeat split; assumption.
  - intros sheet. eexists. eexists.
    split; [cbv; reflexivity|].
    split; [reflexivity|].
    split; [reflexivity|].
    split; [reflexivity|].
    split; [reflexivity|].
    repeat split.
Qed.

Lemma unity_check_formula_witness :
  exists m mass,
    max_mass_of "A" [] = ([], inr m) /\
    compute_mass (fun _ _ => inl "unreachable"%string) false
                 (mk_case (3#10) 1000 "A") [] = ([], inr mass) /\
    mass == 300 /\ mass / m * 100 == 60.
Proof.
  destruct (proj1 unity_check_formula (fun _ _ => inl "unreachable"%string)
              false 1%nat (mk_case (3#10) 1000 "A") [] []
              _ _ (eq_refl _)) as [m [mass [Hm [Hc _]]]].
  exists m, mass. split; [exact Hm|]. split; [exact Hc|].
  injection Hm as <-. injection Hc as <-. split; reflexivity.
Defined.

(** ** Lemmas about the loop *)

Lemma evaluate_case_value sheet b i c s :
  snd (evaluate_case sheet b i c s) = snd (evaluate_case sheet b i c []).
Proof.
  unfold evaluate_case, bind, max_mass_of, compute_mass,
    calculate_mass_from_spreadsheet, ret, raise.
  destruct (String.eqb (norm c) "A");
    [|destruct (String.eqb (norm c) "B");
      [|destruct (String.eqb (norm c) "C")]];
    destruct b; try destruct (sheet (volume c) (density c));
    simpl; try destruct (classify _); reflexivity.
Qed.

Lemma loop_ok sheet b cs :
  forall i s s' gs its,
    loop sheet b i cs s = (s', inr (gs, its)) ->
    length gs = length cs /\ length its = length cs /\
    forall k c, nth_error cs k = Some c ->
      exists s1 s2 g it,
        evaluate_case sheet b (i + k) c s1 = (s2, inr (g, it)) /\
        nth_error gs k = Some g /\ nth_error its k = Some it.
Proof.
  induction cs as [|c cs IH]; intros i s s' gs its H; cbn [loop] in H.
  - unfold ret in H. injection H as <- <- <-.
    split; [reflexivity|]. split; [reflexivity|].
    intros k c Hk. destruct k; discriminate Hk.
  - apply bind_inr in H. destruct H as [s1 [[g it] [He H]]].
    apply bind_inr in H. destruct H as [s2 [[gs' its'] [Hl H]]].
    unfold ret in H. injection H as <- <- <-. simpl.
    destruct (IH _ _ _ _ _ Hl) as [L1 [L2 Hk]].
    split; [f_equal; exact L1|]. split; [f_equal; exact L2|].
    intros k c' Hn. destruct k as [|k]; simpl in Hn.
    + injection Hn as <-. exists s, s1, g, it.
      rewrite Nat.add_0_r. auto.
    + destruct (Hk k c' Hn) as [t1 [t2 [g' [it' [E [G I]]]]]].
      exists t1, t2, g', it'. rewrite Nat.add_succ_r. auto.
Qed.

(** A successful view: one bar and one data item per case, in the order of
    the cases, each one computed by the per-case step from its own case. *)
Lemma view_ok sheet p s r :
  run_view sheet p = (s, inr r) ->
  cases p <> [] /\
  length (data r) = length (cases p) /\
  length (fig_y r) = length (cases p) /\
  length (fig_color r) = length (cases p) /\
  length (fig_x r) = length (cases p) /\
  forall k c, nth_error (cases p) k = Some c ->
    exists it u col s1 s2,
      evaluate_case sheet (spreadsheet p) (S k) c s1 = (s2, inr ((u, col), it)) /\
      nth_error (data r) k = Some it /\
      nth_error (fig_y r) k = Some u /\
      nth_error (fig_color r) k = Some col /\
      nth_error (fig_x r) k = Some (case_label (S k)) /\
      item_label it = case_label (S k) /\
      sub_volume it = volume c /\ sub_density it = density c /\
      sub_norm it = norm c.
Proof.
  unfold run_view, plotly_and_data_view. intros H.
  apply bind_inr in H. destruct H as [s1 [[gs its] [Hl H]]].
  destruct (loop_ok _ _ _ _ _ _ _ _ Hl) as [L1 [L2 Hk]].
  destruct gs as [|g0 gs0] eqn:Egs;
    cbv beta zeta match delta [fst snd raise ret] in H.
  - discriminate H.
  - rewrite <- Egs in H, Hk, L1.
    injection H as <- <-. cbn [fig_x fig_y fig_color data].
    split.
    { intros Hc. rewrite Hc, Egs in L1. discriminate L1. }
    split; [exact L2|].
    split; [rewrite length_map; exact L1|].
    split; [rewrite length_map; exact L1|].
    split; [rewrite length_map, length_seq; exact L1|].
    intros k c Hn.
    destruct (Hk k c Hn) as [t1 [t2 [[u col] [it [E [G I]]]]]].
    exists it, u, col, t1, t2. simpl in E.
    split; [exact E|]. split; [exact I|].
    split; [rewrite nth_error_map, G; reflexivity|].
    split; [rewrite nth_error_map, G; reflexivity|].
    assert (Hlt : (k < length gs)%nat).
    { apply nth_error_Some. rewrite G. discriminate. }
    split.
    { rewrite nth_error_map, nth_error_seq.
      apply Nat.ltb_lt in Hlt. rewrite Hlt. reflexivity. }
    apply evaluate_case_inv in E.
    destruct E as [m [mass [_ [_ [_ ->]]]]]. simpl. auto.
Qed.

(** C6: a successful evaluation of a (necessarily non-empty) list of N
    cases gives N data items and N chart entries (x label, unity check,
    colour), aligned index for index with the cases, in input order. *)
Theorem view_in_order sheet p s r :
  run_view sheet p = (s, inr r) ->
  cases p <> [] /\
  length (data r) = length (cases p) /\
  length (fig_y r) = length (cases p) /\
  length (fig_color r) = length (cases p) /\
  length (fig_x r) = length (cases p) /\
  forall k c, nth_error (cases p) k = Some c ->
    exists it u col s1 s2,
      evaluate_case sheet (spreadsheet p) (S k) c s1 = (s2, inr ((u, col), it)) /\
      nth_error (data r) k = Some it /\
      nth_error (fig_y r) k = Some u /\
      nth_error (fig_color r) k = Some col /\
      nth_error (fig_x r) k = Some (case_label (S k)) /\
      item_label it = case_label (S k) /\
      sub_volume it = volume c /\ sub_density it = density c /\
      sub_norm it = norm c.
Proof. apply view_ok. Qed.

(** Five cases of the three norms, used by the witnesses below. *)
Definition five_cases : list case :=
  [mk_case (3#10) 1000 "A"; mk_case (8#10) 1000 "A"; mk_case (5#10) 900 "B";
   mk_case (1#10) 3000 "C"; mk_case 1 2000 "C"].

Lemma view_in_order_witness :
  exists s r,
    run_view (fun _ _ => inl "unreachable"%string)
             (mk_params five_cases false) = (s, inr r) /\
    length (data r) = 5%nat /\ length (fig_y r) = 5%nat.
Proof.
  destruct (run_view (fun _ _ => inl "unreachable"%string)
                     (mk_params five_cases false)) as [s [e|r]] eqn:E.
  - vm_compute in E. discriminate E.
  - exists s, r. split; [reflexivity|].
    destruct (view_in_order _ _ _ _ E) as [_ [L1 [L2 _]]].
    rewrite L1, L2. split; reflexivity.
Defined.

(** C9: the data item and the chart entry at index [k] depend only on the
    case at index [k] and on the batch-wide choice of strategy: two
    successful evaluations whose case lists agree at [k] agree there. *)
Theorem result_depends_only_on_own_case sheet p1 p2 k c s1 s2 r1 r2 :
  spreadsheet p1 = spreadsheet p2 ->
  nth_error (cases p1) k = Some c ->
  nth_error (cases p2) k = Some c ->
  run_view sheet p1 = (s1, inr r1) ->
  run_view sheet p2 = (s2, inr r2) ->
  nth_error (data r1) k = nth_error (data r2) k /\
  nth_error (fig_y r1) k = nth_error (fig_y r2) k /\
  nth_error (fig_color r1) k = nth_error (fig_color r2) k /\
  nth_error (fig_x r1) k = nth_error (fig_x r2) k.
Proof.
  intros Hb H1 H2 R1 R2.
  destruct (view_ok _ _ _ _ R1) as [_ [_ [_ [_ [_ K1]]]]].
  destruct (view_ok _ _ _ _ R2) as [_ [_ [_ [_ [_ K2]]]]].
  destruct (K1 k c H1) as [it1 [u1 [col1 [t1 [t1' [E1 [D1 [Y1 [C1 [X1 _]]]]]]]]]].
  destruct (K2 k c H2) as [it2 [u2 [col2 [t2 [t2' [E2 [D2 [Y2 [C2 [X2 _]]]]]]]]]].
  rewrite Hb in E1.
  pose proof (evaluate_case_value sheet (spreadsheet p2) (S k) c t1) as V1.
  pose proof (evaluate_case_value sheet (spreadsheet p2) (S k) c t2) as V2.
  rewrite E1 in V1. rewrite E2 in V2. rewrite <- V2 in V1.
  simpl in V1. injection V1 as -> -> ->.
  rewrite D1, D2, Y1, Y2, C1, C2, X1, X2. auto.
Qed.

Lemma result_depends_only_on_own_case_witness :
  exists s1 s2 r1 r2,
    run_view (fun _ _ => inl "unreachable"%string)
             (mk_params five_cases false) = (s1, inr r1) /\
    run_view (fun _ _ => inl "unreachable"%string)
             (mk_params [mk_case 1 1 "B"; mk_case (8#10) 1000 "A"] false)
      = (s2, inr r2) /\
    nth_error (data r1) 1 = nth_error (data r2) 1.
Proof.
  destruct (run_view (fun _ _ => inl "unreachable"%string)
                     (mk_params five_cases false)) as [s1 [e1|r1]] eqn:R1;
    [vm_compute in R1; discriminate R1|].
  destruct (run_view (fun _ _ => inl "unreachable"%string)
              (mk_params [mk_case 1 1 "B"; mk_case (8#10) 1000 "A"] false))
    as [s2 [e2|r2]] eqn:R2;
    [vm_compute in R2; discriminate R2|].
  exists s1, s2, r1, r2. split; [reflexivity|]. split; [reflexivity|].
  refine (proj1 (result_depends_only_on_own_case _
                   (mk_params five_cases false)
                   (mk_params [mk_case 1 1 "B"; mk_case (8#10) 1000 "A"] false)
                   1 (mk_case (8#10) 1000 "A")
                   _ _ _ _ eq_refl eq_refl eq_refl R1 R2)).
Defined.

(** ** Strategy substitutability *)

Section Substitutability.

Variable sheet : Q -> Q -> string + Q.
Hypothesis sheet_is_product : forall v d, sheet v d = inr (v * d).

Lemma evaluate_case_strategies i c s t :
  snd (evaluate_case sheet true i c s) = snd (evaluate_case sheet false i c t).
Proof.
  unfold evaluate_case, bind, max_mass_of, compute_mass,
    calculate_mass_from_spreadsheet, ret, raise.
  rewrite sheet_is_product.
  destruct (String.eqb (norm c) "A");
    [|destruct (String.eqb (norm c) "B");
      [|destruct (String.eqb (norm c) "C")]];
    simpl; try destruct (classify _); reflexivity.
Qed.

Lemma loop_strategies cs :
  forall i s t, snd (loop sheet true i cs s) = snd (loop sheet false i cs t).
Proof.
  induction cs as [|c cs IH]; intros i s t; cbn [loop]; [reflexivity|].
  unfold bind at 1 3.
  pose proof (evaluate_case_strategies i c s t) as V.
  destruct (evaluate_case sheet true i c s) as [s1 [e1|a1]];
    destruct (evaluate_case sheet false i c t) as [t1 [e2|a2]];
    simpl in V; try discriminate V; injection V as <-; [reflexivity|].
  unfold bind.
  specialize (IH (S i) s1 t1).
  destruct (loop sheet true (S i) cs s1) as [s2 [e3|b1]];
    destruct (loop sheet false (S i) cs t1) as [t2 [e4|b2]];
    simpl in IH; try discriminate IH; injection IH as <-; reflexivity.
Qed.

End Substitutability.

(** C7: if the spreadsheet service returns [volume * density] for every
    input, the delegated strategy gives exactly the same result (data items
    with mass, unity check and status, and chart series), or the same
    exception, as the local Python formula, for every list of cases. *)
Theorem delegated_matches_local sheet :
  (forall v d, sheet v d = inr (v * d)) ->
  forall cs,
    snd (run_view sheet (mk_params cs true)) =
    snd (run_view sheet (mk_params cs false)).
Proof.
  intros Hs cs. unfold run_view, plotly_and_data_view, bind. simpl.
  pose proof (loop_strategies sheet Hs cs 1 [] []) as V.
  destruct (loop sheet true 1 cs []) as [s1 [e1|a1]];
    destruct (loop sheet false 1 cs []) as [t1 [e2|a2]];
    simpl in V; try discriminate V; injection V as <-; [reflexivity|].
  destruct (fst a1); reflexivity.
Qed.

Lemma delegated_matches_local_witness :
  snd (run_view (fun v d => inr (v * d)) (mk_params five_cases true)) =
  snd (run_view (fun v d => inr (v * d)) (mk_params five_cases false)).
Proof.
  apply delegated_matches_local. intros v d. reflexivity.
Defined.

(** ** Failures of the per-case step and of the loop *)

Lemma evaluate_case_error sheet b i c s s' e :
  valid_norm (norm c) = true ->
  evaluate_case sheet b i c s = (s', inl e) ->
  b = true /\ exists msg, sheet (volume c) (density c) = inl msg /\
                          e = CalculationServiceError msg.
Proof.
  intros Hv. destruct (max_mass_of_valid _ Hv) as [m [Hm _]].
  unfold evaluate_case. rewrite Hm.
  unfold bind at 1, ret at 1. unfold bind.
  unfold compute_mass, calculate_mass_from_spreadsheet.
  destruct b.
  - destruct (sheet (volume c) (density c)) as [msg|mass]; simpl.
    + intros H. injection H as _ <-. split; [reflexivity|]. eauto.
    + destruct (classify _). discriminate.
  - unfold ret. destruct (classify _). discriminate.
Qed.

Lemma loop_error sheet b cs :
  Forall (fun c => valid_norm (norm c) = true) cs ->
  forall i s s' e, loop sheet b i cs s = (s', inl e) ->
  b = true /\ exists c msg, In c cs /\
    sheet (volume c) (density c) = inl msg /\ e = CalculationServiceError msg.
Proof.
  induction 1 as [|c cs Hc Hcs IH]; intros i s s' e H; cbn [loop] in H.
  - discriminate H.
  - destruct (evaluate_case sheet b i c s) as [s1 [e1|a1]] eqn:E.
    + rewrite (bind_inl_left _ _ _ _ _ E) in H. injection H as _ <-.
      destruct (evaluate_case_error _ _ _ _ _ _ _ Hc E) as [Hb [msg [Hs He]]].
      split; [exact Hb|]. exists c, msg. simpl. auto.
    + rewrite (bind_inr_left _ _ _ _ _ E) in H.
      destruct (loop sheet b (S i) cs s1) as [s2 [e2|a2]] eqn:L.
      * rewrite (bind_inl_left _ _ _ _ _ L) in H. injection H as _ <-.
        destruct (IH _ _ _ _ L) as [Hb [c' [msg [Hin Hs]]]].
        split; [exact Hb|]. exists c', msg. simpl. auto.
      * rewrite (bind_inr_left _ _ _ _ _ L) in H. discriminate H.
Qed.

Lemma view_error sheet p s e :
  Forall (fun c => valid_norm (norm c) = true) (cases p) ->
  run_view sheet p = (s, inl e) ->
  (cases p = [] /\ e = UserException "Add at least 1 case.") \/
  (spreadsheet p = true /\ exists c msg, In c (cases p) /\
     sheet (volume c) (density c) = inl msg /\ e = CalculationServiceError msg).
Proof.
  intros Hv. unfold run_view, plotly_and_data_view.
  destruct (loop sheet (spreadsheet p) 1 (cases p) []) as [s1 [e1|[gs its]]] eqn:L.
  - rewrite (bind_inl_left _ _ _ _ _ L). intros H. injection H as _ <-.
    right. exact (loop_error _ _ _ Hv _ _ _ _ L).
  - rewrite (bind_inr_left _ _ _ _ _ L).
    destruct (loop_ok _ _ _ _ _ _ _ _ L) as [L1 _].
    destruct gs as [|g gs]; simpl; intros H.
    + injection H as _ <-. left. split; [|reflexivity].
      apply length_zero_iff_nil. rewrite <- L1. reflexivity.
    + discriminate H.
Qed.

Lemma loop_first_failure sheet cs :
  Forall (fun c => valid_norm (norm c) = true) cs ->
  (exists c msg, In c cs /\ sheet (volume c) (density c) = inl msg) ->
  forall i s, exists k c msg,
    nth_error cs k = Some c /\
    sheet (volume c) (density c) = inl msg /\
    (forall j c', (j < k)%nat -> nth_error cs j = Some c' ->
       exists mass, sheet (volume c') (density c') = inr mass) /\
    loop sheet true i cs s =
      (s ++ sheet_inputs (firstn (S k) cs), inl (CalculationServiceError msg)).
Proof.
  induction 1 as [|c cs Hc Hcs IH]; intros [c0 [msg0 [Hin Hs0]]] i s.
  - destruct Hin.
  - destruct (max_mass_of_valid _ Hc) as [m [Hm _]].
    assert (Hmax : max_mass_of (norm c) s = (s, inr m)) by (rewrite Hm; reflexivity).
    cbn [loop].
    destruct (sheet (volume c) (density c)) as [msg|mass] eqn:Hs.
    + exists 0%nat, c, msg. split; [reflexivity|]. split; [exact Hs|].
      split; [intros j c' Hj; inversion Hj|].
      apply bind_inl_left.
      unfold evaluate_case. rewrite (bind_inr_left _ _ _ _ _ Hmax).
      apply bind_inl_left.
      unfold compute_mass, calculate_mass_from_spreadsheet. rewrite Hs.
      reflexivity.
    + assert (Hex : exists c' msg', In c' cs /\ sheet (volume c') (density c') = inl msg').
      { destruct Hin as [<-|Hin]; [congruence|]. eauto. }
      destruct (IH Hex (S i) (s ++ [(volume c, density c)]))
        as [k [c' [msg [Hk [Hs' [Hbefore L]]]]]].
      exists (S k), c', msg. split; [exact Hk|]. split; [exact Hs'|].
      split.
      { intros j c'' Hj Hn. destruct j as [|j].
        - injection Hn as <-. eauto.
        - apply (Hbefore j c''); [lia | exact Hn]. }
      assert (E : evaluate_case sheet true i c s =
        (s ++ [(volume c, density c)],
         inr ((mass / m * 100, snd (classify (mass / m * 100))),
              mk_item (case_label i) (mass / m * 100)
                (fst (classify (mass / m * 100)))
                (volume c) (density c) mass (norm c) (mass / m * 100)
                (fst (classify (mass / m * 100)))))).
      { unfold evaluate_case. rewrite (bind_inr_left _ _ _ _ _ Hmax).
        unfold bind, compute_mass, calculate_mass_from_spreadsheet. rewrite Hs.
        destruct (classify _); reflexivity. }
      rewrite (bind_inr_left _ _ _ _ _ E), (bind_inl_left _ _ _ _ _ L).
      rewrite <- app_assoc. reflexivity.
Qed.

(** C8: with the spreadsheet strategy and cases of the offered norms, if
    the spreadsheet service fails on any case, the whole view raises the
    service's error unchanged, from the first failing case: no result is
    returned, and no case after it is sent to the service. *)
Theorem delegated_failure_aborts sheet cs :
  Forall (fun c => valid_norm (norm c) = true) cs ->
  (exists c msg, In c cs /\ sheet (volume c) (density c) = inl msg) ->
  exists k c msg,
    nth_error cs k = Some c /\
    sheet (volume c) (density c) = inl msg /\
    (forall j c', (j < k)%nat -> nth_error cs j = Some c' ->
       exists mass, sheet (volume c') (density c') = inr mass) /\
    run_view sheet (mk_params cs true) =
      (sheet_inputs (firstn (S k) cs), inl (CalculationServiceError msg)).
Proof.
  intros Hv Hf.
  destruct (loop_first_failure sheet cs Hv Hf 1 [])
    as [k [c [msg [Hk [Hs [Hb L]]]]]].
  exists k, c, msg. split; [exact Hk|]. split; [exact Hs|]. split; [exact Hb|].
  unfold run_view, plotly_and_data_view. simpl.
  rewrite (bind_inl_left _ _ _ _ _ L). reflexivity.
Qed.

(** The service fails on volume 0.5 only. *)
Definition flaky_sheet (v d : Q) : string + Q :=
  if Qeq_bool v (5#10) then inl "service unreachable"%string else inr (v * d).

Lemma delegated_failure_aborts_witness :
  exists k c msg,
    nth_error five_cases k = Some c /\
    flaky_sheet (volume c) (density c) = inl msg /\
    (forall j c', (j < k)%nat -> nth_error five_cases j = Some c' ->
       exists mass, flaky_sheet (volume c') (density c') = inr mass) /\
    run_view flaky_sheet (mk_params five_cases true) =
      (sheet_inputs (firstn (S k) five_cases), inl (CalculationServiceError msg)).
Proof.
  apply delegated_failure_aborts.
  - repeat constructor.
  - exists (mk_case (5#10) 900 "B"), "service unreachable"%string.
    split; [simpl; auto 10 | reflexivity].
Defined.

(** C10: for cases of the norms A, B and C the unrecognised-norm branch is
    never taken, the divisor [max_mass] is 500, 750 or 1000 and so positive,
    no exception other than the empty-list error and the spreadsheet error
    can occur, and with the Python formula a non-empty list always
    succeeds. *)
Theorem valid_norms_total sheet cs :
  Forall (fun c => valid_norm (norm c) = true) cs ->
  (forall c, In c cs -> exists m, max_mass_of (norm c) = ret m /\
                         (m = 500 \/ m = 750 \/ m = 1000) /\ 0 < m) /\
  (forall b e, snd (run_view sheet (mk_params cs b)) = inl e ->
               e <> NotImplementedError) /\
  (cs <> [] -> exists s r, run_view sheet (mk_params cs false) = (s, inr r)).
Proof.
  intros Hv. split; [|split].
  - intros c Hin. apply max_mass_of_valid.
    rewrite Forall_forall in Hv. exact (Hv c Hin).
  - intros b e H.
    destruct (run_view sheet (mk_params cs b)) as [s [e'|r]] eqn:R;
      simpl in H; [injection H as ->|discriminate H].
    destruct (view_error sheet (mk_params cs b) _ _ Hv R)
      as [[_ ->]|[_ [c [msg [_ [_ ->]]]]]];
      discriminate.
  - intros Hne.
    destruct (run_view sheet (mk_params cs false)) as [s [e|r]] eqn:R;
      [|eauto].
    destruct (view_error sheet (mk_params cs false) _ _ Hv R) as [[Hc _]|[Hb _]];
      [contradiction | discriminate Hb].
Qed.

Lemma valid_norms_total_witness :
  exists s r, run_view flaky_sheet (mk_params five_cases false) = (s, inr r).
Proof.
  apply (valid_norms_total flaky_sheet five_cases).
  - repeat constructor.
  - discriminate.
Defined.

(** ** Further properties of the Results view *)

(** Order of the statuses, from Success to Error. *)
Definition severity (st : DataStatus) : nat :=
  match st with SUCCESS => 0 | WARNING => 1 | ERROR => 2 end.

Ltac qgt_facts :=
  repeat match goal with
  | H : Qgt_bool _ _ = true |- _ => apply Qgt_bool_true in H
  | H : Qgt_bool _ _ = false |- _ => apply Qgt_bool_false in H
  end.

(** A higher unity check never gives a better status. *)
Theorem classify_monotone u1 u2 :
  u1 <= u2 ->
  (severity (fst (classify u1)) <= severity (fst (classify u2)))%nat.
Proof.
  intros H. unfold classify.
  destruct (Qgt_bool u1 100) eqn:A1, (Qgt_bool u2 100) eqn:A2,
           (Qgt_bool u1 80) eqn:B1, (Qgt_bool u2 80) eqn:B2;
    simpl; try lia; qgt_facts; exfalso; lra.
Qed.

Lemma classify_monotone_witness :
  (severity (fst (classify 90)) <= severity (fst (classify 120)))%nat.
Proof. apply classify_monotone. discriminate. Defined.

Lemma max_mass_of_result n s s' m :
  max_mass_of n s = (s', inr m) -> s' = s /\ (m = 500 \/ m = 750 \/ m = 1000).
Proof.
  unfold max_mass_of.
  destruct (String.eqb n "A"); [|destruct (String.eqb n "B");
    [|destruct (String.eqb n "C")]];
    unfold ret, raise; intros H; inversion H; subst; auto.
Qed.

Lemma max_mass_of_invalid n s :
  valid_norm n = false -> max_mass_of n s = (s, inl NotImplementedError).
Proof.
  unfold valid_norm, max_mass_of.
  destruct (String.eqb n "A"), (String.eqb n "B"), (String.eqb n "C");
    simpl; intros H; try discriminate H; reflexivity.
Qed.

(** The status of a case says how its mass compares with the maximum mass
    of its norm: Error above the maximum, Warning above 80% of it up to the
    maximum, Success up to 80% of it. *)
Theorem status_vs_max_mass sheet b i c s s' g it :
  evaluate_case sheet b i c s = (s', inr (g, it)) ->
  exists m, max_mass_of (norm c) s = (s, inr m) /\
    (item_status it = ERROR <-> m < sub_mass it) /\
    (item_status it = WARNING <-> m * (4#5) < sub_mass it /\ sub_mass it <= m) /\
    (item_status it = SUCCESS <-> sub_mass it <= m * (4#5)).
Proof.
  intros H. apply evaluate_case_inv in H.
  destruct H as [m [mass [Hm [_ [_ ->]]]]].
  exists m. split; [exact Hm|]. cbn [item_status sub_mass].
  destruct (max_mass_of_result _ _ _ _ Hm) as [_ Hv].
  set (u := mass / m * 100).
  assert (Hu : u == mass * (100 / m)).
  { unfold u, Qdiv. ring. }
  destruct Hv as [-> | [-> | ->]];
    [change (100 / 500) with (100 # 500) in Hu
    |change (100 / 750) with (100 # 750) in Hu
    |change (100 / 1000) with (100 # 1000) in Hu];
    unfold classify;
    destruct (Qgt_bool u 100) eqn:A, (Qgt_bool u 80) eqn:B; qgt_facts; simpl;
    (split; [split; [intros Hst; try discriminate Hst; try split; lra
                    |intros; try reflexivity; exfalso; lra]|]);
    (split; [split; [intros Hst; try discriminate Hst; try split; lra
                    |intros; try reflexivity; exfalso; lra]|]);
    (split; [intros Hst; try discriminate Hst; try split; lra
            |intros; try reflexivity; exfalso; lra]).
Qed.

Lemma status_vs_max_mass_witness :
  exists m, max_mass_of "B" [] = ([], inr m) /\
    (WARNING = ERROR <-> m < 700) /\
    (WARNING = WARNING <-> m * (4#5) < 700 /\ 700 <= m) /\
    (WARNING = SUCCESS <-> 700 <= m * (4#5)).
Proof.
  refine (status_vs_max_mass (fun _ _ => inl "unreachable"%string) false 1
            (mk_case 1 700 "B") [] [] _ _ eq_refl).
Defined.

Lemma evaluate_case_local_state sheet i c s :
  fst (evaluate_case sheet false i c s) = s.
Proof.
  unfold evaluate_case, bind, max_mass_of, compute_mass, ret, raise.
  destruct (String.eqb (norm c) "A");
    [|destruct (String.eqb (norm c) "B");
      [|destruct (String.eqb (norm c) "C")]];
    simpl; try destruct (classify _); reflexivity.
Qed.

Lemma loop_local_state sheet cs :
  forall i s, fst (loop sheet false i cs s) = s.
Proof.
  induction cs as [|c cs IH]; intros i s; cbn [loop]; [reflexivity|].
  unfold bind at 1.
  pose proof (evaluate_case_local_state sheet i c s) as E.
  destruct (evaluate_case sheet false i c s) as [s1 [e1|a1]];
    simpl in E; subst s1; [reflexivity|].
  unfold bind. specialize (IH (S i) s).
  destruct (loop sheet false (S i) cs s) as [s2 [e2|a2]];
    simpl in IH; subst s2; reflexivity.
Qed.

(** With the Python formula the spreadsheet service is never called,
    whatever the outcome of the view. *)
Theorem local_never_calls_sheet sheet cs :
  fst (run_view sheet (mk_params cs false)) = [].
Proof.
  unfold run_view, plotly_and_data_view, bind. simpl.
  pose proof (loop_local_state sheet cs 1 []) as E.
  destruct (loop sheet false 1 cs []) as [s1 [e1|[gs its]]];
    simpl in E; subst s1; [reflexivity|].
  destruct gs; reflexivity.
Qed.

Lemma loop_log sheet b cs :
  forall i s s' a, loop sheet b i cs s = (s', inr a) ->
  s' = s ++ (if b then sheet_inputs cs else []).
Proof.
  induction cs as [|c cs IH]; intros i s s' a H; cbn [loop] in H.
  - unfold ret in H. injection H as <- _. destruct b; rewrite app_nil_r; reflexivity.
  - apply bind_inr in H. destruct H as [s1 [[g it] [He H]]].
    apply bind_inr in H. destruct H as [s2 [a2 [Hl H]]].
    unfold ret in H. injection H as <- _.
    apply evaluate_case_inv in He. destruct He as [m [mass [_ [Hc _]]]].
    rewrite (IH _ _ _ _ Hl).
    unfold compute_mass, calculate_mass_from_spreadsheet, ret in Hc.
    destruct b; injection Hc as <- _.
    + rewrite <- app_assoc. reflexivity.
    + reflexivity.
Qed.

(** A successful view with the spreadsheet calls the service exactly once
    per case, in the order of the cases, with that case's volume and
    density. *)
Theorem delegated_calls_once_per_case sheet cs s r :
  run_view sheet (mk_params cs true) = (s, inr r) -> s = sheet_inputs cs.
Proof.
  unfold run_view, plotly_and_data_view. intros H.
  apply bind_inr in H. destruct H as [s1 [[gs its] [Hl H]]].
  apply loop_log in Hl. simpl in Hl.
  destruct gs; simpl in H; [discriminate H|].
  unfold ret in H. injection H as <- _. exact Hl.
Qed.

Lemma delegated_calls_once_per_case_witness :
  exists s r,
    run_view (fun v d => inr (v * d)) (mk_params five_cases true) = (s, inr r) /\
    s = sheet_inputs five_cases.
Proof.
  destruct (run_view (fun v d => inr (v * d)) (mk_params five_cases true))
    as [s [e|r]] eqn:R; [vm_compute in R; discriminate R|].
  exists s, r. split; [reflexivity|].
  exact (delegated_calls_once_per_case _ _ _ _ R).
Defined.

Lemma evaluate_case_succeeds sheet b i c s :
  valid_norm (norm c) = true ->
  (b = true -> exists mass, sheet (volume c) (density c) = inr mass) ->
  exists x, evaluate_case sheet b i c s =
            (s ++ (if b then [(volume c, density c)] else []), inr x).
Proof.
  intros Hv Hs. destruct (max_mass_of_valid _ Hv) as [m [Hm _]].
  unfold evaluate_case, bind. rewrite Hm.
  unfold ret at 1, compute_mass, calculate_mass_from_spreadsheet.
  destruct b.
  - destruct (Hs eq_refl) as [mass E]. rewrite E. simpl.
    destruct (classify _). eexists. reflexivity.
  - unfold ret. destruct (classify _). eexists. rewrite app_nil_r. reflexivity.
Qed.

Lemma loop_invalid_norm sheet b cs :
  forall k c i s,
    (forall j c', (j < k)%nat -> nth_error cs j = Some c' ->
       valid_norm (norm c') = true /\
       (b = true -> exists mass, sheet (volume c') (density c') = inr mass)) ->
    nth_error cs k = Some c -> valid_norm (norm c) = false ->
    loop sheet b i cs s =
      (s ++ (if b then sheet_inputs (firstn k cs) else []), inl NotImplementedError).
Proof.
  induction cs as [|c0 cs IH]; intros k c i s Hbefore Hk Hc;
    [destruct k; discriminate Hk|].
  cbn [loop]. destruct k as [|k].
  - injection Hk as ->.
    apply bind_inl_left. unfold evaluate_case.
    apply bind_inl_left. rewrite (max_mass_of_invalid _ _ Hc).
    destruct b; rewrite app_nil_r; reflexivity.
  - destruct (Hbefore 0%nat c0 ltac:(lia) eq_refl) as [Hv Hs].
    destruct (evaluate_case_succeeds sheet b i c0 s Hv Hs) as [x E].
    rewrite (bind_inr_left _ _ _ _ _ E).
    apply bind_inl_left.
    rewrite (IH k c (S i) _); [| |exact Hk|exact Hc].
    + destruct b; simpl; [rewrite <- app_assoc|rewrite app_nil_r]; reflexivity.
    + intros j c' Hj Hn. apply (Hbefore (S j)); [lia|exact Hn].
Qed.

(** A case whose norm is not A, B or C stops the view with
    [NotImplementedError]; the cases before it were evaluated (and sent to
    the spreadsheet service, with that strategy), no case from it on is. *)
Theorem unknown_norm_aborts sheet b cs k c :
  (forall j c', (j < k)%nat -> nth_error cs j = Some c' ->
     valid_norm (norm c') = true /\
     (b = true -> exists mass, sheet (volume c') (density c') = inr mass)) ->
  nth_error cs k = Some c -> valid_norm (norm c) = false ->
  run_view sheet (mk_params cs b) =
    (if b then sheet_inputs (firstn k cs) else [], inl NotImplementedError).
Proof.
  intros Hbefore Hk Hc. unfold run_view, plotly_and_data_view.
  apply bind_inl_left. simpl.
  rewrite (loop_invalid_norm sheet b cs k c 1 [] Hbefore Hk Hc).
  reflexivity.
Qed.

Lemma unknown_norm_aborts_witness :
  run_view (fun v d => inr (v * d))
           (mk_params [mk_case 1 1 "A"; mk_case 1 1 "D"; mk_case 1 1 "B"] true)
  = ([(1, 1)], inl NotImplementedError).
Proof.
  refine (unknown_norm_aborts (fun v d => inr (v * d)) true
            [mk_case 1 1 "A"; mk_case 1 1 "D"; mk_case 1 1 "B"] 1
            (mk_case 1 1 "D") _ eq_refl eq_refl).
  intros j c' Hj Hn. destruct j as [|j]; [|lia].
  injection Hn as <-. split; [reflexivity|]. intros _. eexists. reflexivity.
Defined.

Lemma compute_mass_value sheet b c1 c2 s t s1 t1 x1 x2 :
  volume c1 = volume c2 -> density c1 = density c2 ->
  compute_mass sheet b c1 s = (s1, inr x1) ->
  compute_mass sheet b c2 t = (t1, inr x2) -> x1 = x2.
Proof.
  intros Hv Hd. unfold compute_mass, calculate_mass_from_spreadsheet, ret.
  rewrite Hv, Hd. destruct b.
  - destruct (sheet (volume c2) (density c2)); intros H1 H2;
      [discriminate H1|]. injection H1 as _ <-. injection H2 as _ <-. reflexivity.
  - intros H1 H2. injection H1 as _ <-. injection H2 as _ <-. reflexivity.
Qed.

(** Two cases with the same volume and density: the one whose norm allows
    the larger maximum mass never gets a worse status. *)
Theorem larger_max_mass_no_worse sheet b i j c1 c2 s t s1 t1 g1 g2 it1 it2 m1 m2 :
  volume c1 = volume c2 -> density c1 = density c2 ->
  max_mass_of (norm c1) s = (s, inr m1) ->
  max_mass_of (norm c2) t = (t, inr m2) ->
  m1 <= m2 ->
  evaluate_case sheet b i c1 s = (s1, inr (g1, it1)) ->
  evaluate_case sheet b j c2 t = (t1, inr (g2, it2)) ->
  (severity (item_status it2) <= severity (item_status it1))%nat.
Proof.
  intros Hv Hd Hm1 Hm2 Hle H1 H2.
  apply evaluate_case_inv in H1. destruct H1 as [m1' [x1 [Hm1' [Hc1 [_ ->]]]]].
  apply evaluate_case_inv in H2. destruct H2 as [m2' [x2 [Hm2' [Hc2 [_ ->]]]]].
  rewrite Hm1 in Hm1'. injection Hm1' as <-.
  rewrite Hm2 in Hm2'. injection Hm2' as <-.
  rewrite (compute_mass_value _ _ _ _ _ _ _ _ _ _ Hv Hd Hc1 Hc2).
  cbn [item_status]. clear Hc1 Hc2.
  destruct (max_mass_of_result _ _ _ _ Hm1) as [_ V1].
  destruct (max_mass_of_result _ _ _ _ Hm2) as [_ V2].
  assert (E1 : x2 / m1 * 100 == x2 * (100 / m1)) by (unfold Qdiv; ring).
  assert (E2 : x2 / m2 * 100 == x2 * (100 / m2)) by (unfold Qdiv; ring).
  destruct (Qlt_le_dec x2 0) as [Hneg|Hpos].
  - rewrite (classify_success (x2 / m2 * 100)); [simpl; lia|].
    destruct V2 as [-> | [-> | ->]];
      [change (100 / 500) with (100 # 500) in E2
      |change (100 / 750) with (100 # 750) in E2
      |change (100 / 1000) with (100 # 1000) in E2]; lra.
  - apply classify_monotone.
    destruct V1 as [-> | [-> | ->]];
      [change (100 / 500) with (100 # 500) in E1
      |change (100 / 750) with (100 # 750) in E1
      |change (100 / 1000) with (100 # 1000) in E1];
    destruct V2 as [-> | [-> | ->]];
      [change (100 / 500) with (100 # 500) in E2
      |change (100 / 750) with (100 # 750) in E2
      |change (100 / 1000) with (100 # 1000) in E2
      |change (100 / 500) with (100 # 500) in E2
      |change (100 / 750) with (100 # 750) in E2
      |change (100 / 1000) with (100 # 1000) in E2
      |change (100 / 500) with (100 # 500) in E2
      |change (100 / 750) with (100 # 750) in E2
      |change (100 / 1000) with (100 # 1000) in E2]; lra.
Qed.

Lemma larger_max_mass_no_worse_witness :
  (severity SUCCESS <= severity ERROR)%nat.
Proof.
  exact (larger_max_mass_no_worse (fun _ _ => inl "unreachable"%string) false 1 1
           (mk_case 1 600 "A") (mk_case 1 600 "B") [] [] [] []
           _ _ _ _ 500 750 eq_refl eq_refl eq_refl eq_refl
           ltac:(discriminate) eq_refl eq_refl).
Defined.

(** The chart entry a case can produce, at any position and from any log. *)
Definition graph_entry_of sheet b (c : case) (g : Q * string) : Prop :=
  exists i s1 s2 it, evaluate_case sheet b i c s1 = (s2, inr (g, it)).

Lemma graph_entry_unique sheet b c g1 g2 :
  graph_entry_of sheet b c g1 -> graph_entry_of sheet b c g2 -> g1 = g2.
Proof.
  intros [i [s1 [s2 [it1 H1]]]] [j [t1 [t2 [it2 H2]]]].
  apply evaluate_case_inv in H1. destruct H1 as [m1 [x1 [Hm1 [Hc1 [-> _]]]]].
  apply evaluate_case_inv in H2. destruct H2 as [m2 [x2 [Hm2 [Hc2 [-> _]]]]].
  rewrite max_mass_of_state in Hm1, Hm2.
  injection Hm1 as Hm1. injection Hm2 as Hm2.
  rewrite Hm1 in Hm2. injection Hm2 as <-.
  rewrite (compute_mass_value _ _ _ _ _ _ _ _ _ _ eq_refl eq_refl Hc1 Hc2).
  reflexivity.
Qed.

Lemma graph_entries_unique sheet b cs :
  forall gs1 gs2,
    Forall2 (graph_entry_of sheet b) cs gs1 ->
    Forall2 (graph_entry_of sheet b) cs gs2 -> gs1 = gs2.
Proof.
  induction cs as [|c cs IH]; intros gs1 gs2 H1 H2;
    inversion H1; subst; inversion H2; subst; [reflexivity|].
  f_equal; [eapply graph_entry_unique; eassumption | apply IH; assumption].
Qed.

Lemma loop_graph sheet b cs :
  forall i s s' gs its, loop sheet b i cs s = (s', inr (gs, its)) ->
  Forall2 (graph_entry_of sheet b) cs gs.
Proof.
  induction cs as [|c cs IH]; intros i s s' gs its H; cbn [loop] in H.
  - unfold ret in H. injection H as _ <- _. constructor.
  - apply bind_inr in H. destruct H as [s1 [[g it] [He H]]].
    apply bind_inr in H. destruct H as [s2 [[gs' its'] [Hl H]]].
    unfold ret in H. injection H as _ <- _. simpl.
    constructor; [exists i, s, s1, it; exact He | exact (IH _ _ _ _ _ Hl)].
Qed.

Lemma view_graph sheet p s r :
  run_view sheet p = (s, inr r) ->
  exists gs, fig_y r = map fst gs /\ fig_color r = map snd gs /\
             Forall2 (graph_entry_of sheet (spreadsheet p)) (cases p) gs.
Proof.
  unfold run_view, plotly_and_data_view. intros H.
  apply bind_inr in H. destruct H as [s1 [[gs its] [Hl H]]].
  pose proof (loop_graph _ _ _ _ _ _ _ _ Hl) as G.
  destruct gs as [|g0 gs0] eqn:Egs;
    cbv beta zeta match delta [fst snd raise ret] in H; [discriminate H|].
  rewrite <- Egs in H, G. injection H as _ <-.
  exists gs. auto.
Qed.

(** The chart series (unity checks and colours) of a list of cases is the
    series of its first part followed by the series of its second part,
    when the three views succeed. *)
Theorem chart_series_append sheet b cs1 cs2 s s1 s2 r r1 r2 :
  run_view sheet (mk_params (cs1 ++ cs2) b) = (s, inr r) ->
  run_view sheet (mk_params cs1 b) = (s1, inr r1) ->
  run_view sheet (mk_params cs2 b) = (s2, inr r2) ->
  fig_y r = fig_y r1 ++ fig_y r2 /\ fig_color r = fig_color r1 ++ fig_color r2.
Proof.
  intros H H1 H2.
  destruct (view_graph _ _ _ _ H) as [gs [-> [-> G]]].
  destruct (view_graph _ _ _ _ H1) as [gs1 [-> [-> G1]]].
  destruct (view_graph _ _ _ _ H2) as [gs2 [-> [-> G2]]].
  simpl in G, G1, G2.
  apply Forall2_app_inv_l in G. destruct G as [ga [gb [Ga [Gb ->]]]].
  rewrite (graph_entries_unique _ _ _ _ _ Ga G1),
          (graph_entries_unique _ _ _ _ _ Gb G2).
  rewrite !map_app. auto.
Qed.

Lemma chart_series_append_witness :
  exists s s1 s2 r r1 r2,
    run_view (fun v d => inr (v * d)) (mk_params five_cases true) = (s, inr r) /\
    run_view (fun v d => inr (v * d)) (mk_params (firstn 2 five_cases) true) = (s1, inr r1) /\
    run_view (fun v d => inr (v * d)) (mk_params (skipn 2 five_cases) true) = (s2, inr r2) /\
    fig_y r = fig_y r1 ++ fig_y r2.
Proof.
  destruct (run_view (fun v d => inr (v * d)) (mk_params five_cases true))
    as [s [e|r]] eqn:R; [vm_compute in R; discriminate R|].
  destruct (run_view (fun v d => inr (v * d)) (mk_params (firstn 2 five_cases) true))
    as [s1 [e1|r1]] eqn:R1; [vm_compute in R1; discriminate R1|].
  destruct (run_view (fun v d => inr (v * d)) (mk_params (skipn 2 five_cases) true))
    as [s2 [e2|r2]] eqn:R2; [vm_compute in R2; discriminate R2|].
  exists s, s1, s2, r, r1, r2. split; [reflexivity|]. split; [reflexivity|].
  split; [reflexivity|].
  rewrite <- (firstn_skipn 2 five_cases) in R.
  exact (proj1 (chart_series_append _ _ _ _ _ _ _ _ _ _ R R1 R2)).
Defined.

(** ** [get_color] and the Map view *)

(** The Python code of [get_color] computes with IEEE doubles; it is
    embedded with Rocq's primitive 64-bit floats. *)

(** A Python [int] as a decimal string ([str(value)]). *)
Definition py_str_int (v : Z) : string := NilZero.string_of_int (Z.to_int v).

(** Python [int(x)] on a float: truncation toward zero; [None] for an
    infinity or NaN, where Python raises. *)
Definition py_int_of_float (f : PrimFloat.float) : option Z :=
  match FloatOps.Prim2SF f with
  | SpecFloat.S754_zero _ => Some 0%Z
  | SpecFloat.S754_finite s m e =>
      let a := (if (0 <=? e)%Z then Z.pos m * 2 ^ e else Z.pos m / 2 ^ (- e))%Z in
      Some (if s then (- a)%Z else a)
  | _ => None
  end.

(** Python [float(n)] for a small non-negative [int] (exact). *)
Definition py_float_of_small_int (n : Z) : PrimFloat.float :=
  PrimFloat.of_uint63 (Uint63.of_Z n).

(** [viktor.Color(r, g, b)]. *)
Record color := mk_color { c_red : Z; c_green : Z; c_blue : Z }.

(** [Color.black()]. *)
Definition color_black : color := mk_color 0 0 0.

(** Exceptions of the Map view: the [ValueError] of [get_color], and the
    error of [int()] on a non-finite float. *)
Inductive py_error :=
| ValueError (msg : string)
| OverflowError.

(** [get_color(value)] (lines 32-40). *)
Definition get_color (value : Z) : py_error + color :=
  if negb ((0 <=? value)%Z && (value <=? 100)%Z) then
    inl (ValueError ("value (" ++ py_str_int value ++ ") must be between 0 - 100"))
  else
    match py_int_of_float
            (PrimFloat.mul
               (PrimFloat.div (py_float_of_small_int value) (py_float_of_small_int 100))
               (py_float_of_small_int 255)) with
    | Some r => inr (mk_color r 255 0)
    | None => inl OverflowError
    end.

(** A [GeoPoint]. *)
Record geo_point := mk_geo { lat : Q; lon : Q }.

(** [MapPoint.from_geo_point(location, description=..., color=..., icon=...)]. *)
Record map_point := mk_map_point {
  mp_lat : Q; mp_lon : Q; mp_description : string; mp_color : color; mp_icon : string }.

(** [MapLabel(lat, lon, text, scale=17)]. *)
Record map_label := mk_map_label { ml_lat : Q; ml_lon : Q; ml_text : string; ml_scale : Z }.

(** [MapResult(features, labels, legend)]; the legend entries are
    [(color, text)] pairs. *)
Record map_result := mk_map_result {
  features : list map_point; labels : list map_label; legend : list (color * string) }.

Definition sbind {E A B} (m : E + A) (k : A -> E + B) : E + B :=
  match m with inl e => inl e | inr a => k a end.

(** [[f(i) for i in xs]] where [f] may raise. *)
Fixpoint map_raise {E A B} (f : A -> E + B) (xs : list A) : E + list B :=
  match xs with
  | [] => inr []
  | x :: xs' => sbind (f x) (fun y => sbind (map_raise f xs') (fun ys => inr (y :: ys)))
  end.

(** The values shown in the legend (line 307). *)
Definition legend_values : list Z := [0; 10; 20; 30; 40; 50; 60; 70; 80; 90; 100]%Z.

(** [map_view] (lines 284-310): [location] is [None] when the field is
    unfilled, [measurement] is [None] when it was removed. *)
Definition map_view (location : option geo_point) (measurement : option Z)
  : py_error + map_result :=
  sbind
    (match location with
     | None => inr ([], [])
     | Some loc =>
         match measurement with
         | Some m =>
             sbind (get_color m) (fun color =>
               inr ([mk_map_point (lat loc) (lon loc)
                       ("Measurement: " ++ py_str_int m) color "pin-add"],
                    [mk_map_label (lat loc) (lon loc) (py_str_int m) 17]))
         | None =>
             inr ([mk_map_point (lat loc) (lon loc) "Measurement: None"
                     color_black "cross"], [])
         end
     end)
    (fun fl =>
       sbind (map_raise (fun i => sbind (get_color i) (fun c => inr (c, py_str_int i)))
                        legend_values)
             (fun legend_entries => inr (mk_map_result (fst fl) (snd fl) legend_entries))).

(** The float computation of [get_color] checked against exact integer
    arithmetic. *)
Definition get_color_matches (v : Z) : bool :=
  match get_color v with
  | inr c => (Z.eqb (c_red c) (v * 255 / 100) && Z.eqb (c_green c) 255 &&
              Z.eqb (c_blue c) 0)%bool
  | inl _ => false
  end.

Lemma get_color_matches_all :
  forallb (fun n => get_color_matches (Z.of_nat n)) (seq 0 101) = true.
Proof. vm_compute. reflexivity. Qed.

(** [get_color] raises [ValueError] with its message exactly when the value
    is outside [0, 100]. *)
Theorem get_color_out_of_range v :
  (v < 0 \/ 100 < v)%Z ->
  get_color v =
    inl (ValueError ("value (" ++ py_str_int v ++ ") must be between 0 - 100")).
Proof.
  intros H. unfold get_color.
  replace ((0 <=? v)%Z && (v <=? 100)%Z)%bool with false; [reflexivity|].
  symmetry. apply Bool.andb_false_iff.
  destruct H; [left; apply Z.leb_gt | right; apply Z.leb_gt]; lia.
Qed.

Lemma get_color_out_of_range_witness :
  get_color 101 = inl (ValueError "value (101) must be between 0 - 100").
Proof. apply get_color_out_of_range. lia. Defined.

(** For a value in [0, 100], the float computation
    [int(value / 100 * 255)] gives exactly [floor(value * 255 / 100)]: the
    colour is [(value * 255 // 100, 255, 0)]. *)
Theorem get_color_in_range v :
  (0 <= v <= 100)%Z -> get_color v = inr (mk_color (v * 255 / 100) 255 0).
Proof.
  intros H.
  assert (Hin : In (Z.to_nat v) (seq 0 101)) by (apply in_seq; lia).
  pose proof (proj1 (forallb_forall _ _) get_color_matches_all _ Hin) as M.
  cbv beta in M. rewrite Z2Nat.id in M by lia.
  unfold get_color_matches in M.
  destruct (get_color v) as [e|[r g b]]; [discriminate M|].
  simpl in M. apply Bool.andb_true_iff in M. destruct M as [M M3].
  apply Bool.andb_true_iff in M. destruct M as [M1 M2].
  apply Z.eqb_eq in M1, M2, M3. subst. reflexivity.
Qed.

Lemma get_color_in_range_witness :
  get_color 50 = inr (mk_color 127 255 0).
Proof. apply (get_color_in_range 50). lia. Defined.

(** The red component grows with the value, from 0 at 0 to 255 at 100;
    green is always 255 and blue 0. *)
Theorem get_color_red_monotone v1 v2 c1 c2 :
  (0 <= v1 <= v2)%Z -> (v2 <= 100)%Z ->
  get_color v1 = inr c1 -> get_color v2 = inr c2 ->
  (0 <= c_red c1 <= c_red c2)%Z /\ (c_red c2 <= 255)%Z /\
  c_green c1 = 255%Z /\ c_blue c1 = 0%Z.
Proof.
  intros H1 H2 E1 E2.
  rewrite get_color_in_range in E1 by lia.
  rewrite get_color_in_range in E2 by lia.
  injection E1 as <-. injection E2 as <-. simpl.
  split; [split|split; [|split; reflexivity]].
  - apply Z.div_pos; lia.
  - apply Z.div_le_mono; lia.
  - apply Z.div_le_upper_bound; lia.
Qed.

Lemma get_color_red_monotone_witness :
  (0 <= 25 <= 51)%Z /\ (51 <= 255)%Z /\ 255%Z = 255%Z /\ 0%Z = 0%Z.
Proof.
  exact (get_color_red_monotone 10 20 (mk_color 25 255 0) (mk_color 51 255 0)
           ltac:(lia) ltac:(lia) eq_refl eq_refl).
Defined.

(** The legend: one entry per value 0, 10, ..., 100, with its colour. *)
Definition expected_legend : list (color * string) :=
  map (fun i => (mk_color (i * 255 / 100) 255 0, py_str_int i)) legend_values.

Lemma legend_entries_ok :
  map_raise (fun i => sbind (get_color i) (fun c => inr (c, py_str_int i)))
            legend_values = inr expected_legend.
Proof. vm_compute. reflexivity. Qed.

(** Without a location the map has no marker and no label, and the view
    never raises, whatever the measurement (also one outside [0, 100]). *)
Theorem map_view_no_location measurement :
  map_view None measurement = inr (mk_map_result [] [] expected_legend).
Proof.
  unfold map_view. cbn [sbind fst snd].
  rewrite legend_entries_ok. reflexivity.
Qed.

(** With a location and a measurement in [0, 100] (0 included: the code
    tests [is not None]), the map has one "pin-add" marker at the location
    coloured [get_color(measurement)] and one label with the measurement. *)
Theorem map_view_with_measurement loc m :
  (0 <= m <= 100)%Z ->
  map_view (Some loc) (Some m) =
    inr (mk_map_result
           [mk_map_point (lat loc) (lon loc) ("Measurement: " ++ py_str_int m)
                         (mk_color (m * 255 / 100) 255 0) "pin-add"]
           [mk_map_label (lat loc) (lon loc) (py_str_int m) 17]
           expected_legend).
Proof.
  intros H. unfold map_view. rewrite (get_color_in_range m H).
  cbn [sbind fst snd]. rewrite legend_entries_ok. reflexivity.
Qed.

Lemma map_view_with_measurement_witness :
  map_view (Some (mk_geo 52 5)) (Some 0%Z) =
    inr (mk_map_result
           [mk_map_point 52 5 "Measurement: 0" (mk_color 0 255 0) "pin-add"]
           [mk_map_label 52 5 "0" 17] expected_legend).
Proof. apply (map_view_with_measurement (mk_geo 52 5) 0). lia. Defined.

(** With a location and a measurement outside [0, 100], the view raises the
    [ValueError] of [get_color]. *)
Theorem map_view_bad_measurement loc m :
  (m < 0 \/ 100 < m)%Z ->
  map_view (Some loc) (Some m) =
    inl (ValueError ("value (" ++ py_str_int m ++ ") must be between 0 - 100")).
Proof.
  intros H. unfold map_view. rewrite (get_color_out_of_range m H). reflexivity.
Qed.

Lemma map_view_bad_measurement_witness :
  map_view (Some (mk_geo 52 5)) (Some (-1)%Z) =
    inl (ValueError "value (-1) must be between 0 - 100").
Proof. apply map_view_bad_measurement. lia. Defined.

(** With a location and no measurement, the marker is a black cross
    described "Measurement: None", and there is no label. *)
Theorem map_view_no_measurement loc :
  map_view (Some loc) None =
    inr (mk_map_result
           [mk_map_point (lat loc) (lon loc) "Measurement: None" color_black "cross"]
           [] expected_legend).
Proof.
  unfold map_view. cbn [sbind fst snd]. rewrite legend_entries_ok. reflexivity.
Qed.

(** ** The Geometry view *)

(** [Point(x, y, z)]; [Point(x, y)] has [z = 0]. *)
Record point3 := mk_point { px : Q; py : Q; pz : Q }.

(** [Material("my_material", color=Color(red, green, blue))]; the slider
    values are kept as given. *)
Record material := mk_material {
  mat_name : string; mat_red : Q; mat_green : Q; mat_blue : Q }.

(** The three geometries the view can build. *)
Inductive geometry :=
| CircularExtrusion (diameter : Q) (line : point3 * point3) (mat : material)
| SquareBeam (length_x length_y length_z : Q) (mat : material)
| Extrusion (profile : list point3) (line : point3 * point3) (mat : material).

(** [Label(point, text, size_factor=2)]. *)
Record label3 := mk_label3 { lb_point : point3; lb_text : string; lb_size : Q }.

(** [params.design]: [height] is [None] when the field is emptied,
    [label] is [None] when never filled. *)
Record design_params := mk_design {
  shape : string; height : option Q;
  red : Q; green : Q; blue : Q;
  show_label : bool; label : option string }.

(** Python truthiness of an optional string. *)
Definition py_truthy_str (s : option string) : bool :=
  match s with Some t => negb (String.eqb t "") | None => false end.

(** [geometry_view] (lines 313-345). *)
Definition geometry_view (p : design_params) : exn + (geometry * list label3) :=
  let mat := mk_material "my_material" (red p) (green p) (blue p) in
  match height p with
  | Some h =>
      sbind
        (if String.eqb (shape p) "Circle" then
           inr (CircularExtrusion 1 (mk_point 0 0 (- h / 2), mk_point 0 0 (h / 2)) mat)
         else if String.eqb (shape p) "Rectangle" then
           inr (SquareBeam 1 1 h mat)
         else if String.eqb (shape p) "Triangle" then
           inr (Extrusion [mk_point 1 0 0; mk_point (-1) 0 0; mk_point 0 2 0; mk_point 1 0 0]
                          (mk_point 0 0 (- h / 2), mk_point 0 0 (h / 2)) mat)
         else inl NotImplementedError)
        (fun g =>
           let labels :=
             if (show_label p && py_truthy_str (label p))%bool then
               match label p with
               | Some t => [mk_label3 (mk_point 0 0 (- h)) t 2]
               | None => []
               end
             else [] in
           inr (g, labels))
  | None => inl (UserException "Please fill in a value for 'height'")
  end.


(** Without a height the view raises the user error, whatever the shape
    (also one it does not know). *)
Theorem geometry_view_no_height p :
  height p = None ->
  geometry_view p = inl (UserException "Please fill in a value for 'height'").
Proof. intros H. unfold geometry_view. rewrite H. reflexivity. Qed.

Lemma geometry_view_no_height_witness :
  geometry_view (mk_design "Hexagon" None 1 2 3 true (Some "x"%string)) =
    inl (UserException "Please fill in a value for 'height'").
Proof. apply geometry_view_no_height. reflexivity. Defined.

(** With a height, a shape other than Circle, Rectangle and Triangle raises
    [NotImplementedError]. *)
Theorem geometry_view_unknown_shape p h :
  height p = Some h ->
  shape p <> "Circle"%string -> shape p <> "Rectangle"%string ->
  shape p <> "Triangle"%string ->
  geometry_view p = inl NotImplementedError.
Proof.
  intros H H1 H2 H3. unfold geometry_view. rewrite H.
  apply String.eqb_neq in H1, H2, H3. rewrite H1, H2, H3. reflexivity.
Qed.

Lemma geometry_view_unknown_shape_witness :
  geometry_view (mk_design "Hexagon" (Some 2) 1 2 3 true (Some "x"%string)) =
    inl NotImplementedError.
Proof. apply (geometry_view_unknown_shape _ 2); [reflexivity|discriminate..]. Defined.





(** With a height [h], the view shows a label exactly when "Show label" is
    on and the label text is filled in (not empty); the label carries that
    text, at [(0, 0, -h)], with size factor 2. *)
Theorem geometry_view_label p h g ls :
  height p = Some h ->
  geometry_view p = inr (g, ls) ->
  (ls <> [] <-> show_label p = true /\
               exists t, label p = Some t /\ t <> ""%string) /\
  (forall l, In l ls ->
     lb_point l = mk_point 0 0 (- h) /\ lb_size l = 2 /\
     label p = Some (lb_text l)).
Proof.
  intros Hh. unfold geometry_view. rewrite Hh.
  destruct (if String.eqb (shape p) "Circle" then _ else _) as [e|g0];
    cbn [sbind]; intros H; [discriminate H|].
  injection H as _ <-.
  destruct (show_label p) eqn:S, (label p) as [t|] eqn:L;
    unfold py_truthy_str; simpl;
    [destruct (String.eqb t "") eqn:T; simpl| | |].
  - apply String.eqb_eq in T. split.
    + split; [intros C; exfalso; apply C; reflexivity|].
      intros [_ [t' [Ht' Hne]]]. injection Ht' as <-. contradiction.
    + intros l [].
  - apply String.eqb_neq in T. split.
    + split; [intros _; split; [reflexivity|eauto]|discriminate].
    + intros l [<- | []]. simpl. auto.
  - split; [split; [intros C; exfalso; apply C; reflexivity|]|intros l []].
    intros [_ [t' [Ht' _]]]. discriminate Ht'.
  - split; [split; [intros C; exfalso; apply C; reflexivity|]|intros l []].
    intros [Hf _]. discriminate Hf.
  - split; [split; [intros C; exfalso; apply C; reflexivity|]|intros l []].
    intros [Hf _]. discriminate Hf.
Qed.

Lemma geometry_view_label_witness :
  exists g ls,
    geometry_view (mk_design "Circle" (Some 3) 0 0 0 true (Some "beam"%string))
      = inr (g, ls) /\
    ls <> [].
Proof.
  destruct (geometry_view (mk_design "Circle" (Some 3) 0 0 0 true (Some "beam"%string)))
    as [e|[g ls]] eqn:E; [discriminate E|].
  exists g, ls. split; [reflexivity|].
  apply (proj1 (geometry_view_label
                 (mk_design "Circle" (Some 3) 0 0 0 true (Some "beam"%string))
                 3 g ls eq_refl E)).
  split; [reflexivity|]. exists "beam"%string. split; [reflexivity|discriminate].
Defined.

(** The status of a data item and the colour of its bar always agree. *)
Definition status_color (st : DataStatus) : string :=
  match st with
  | ERROR => "red" | WARNING => "orange" | SUCCESS => "green"
  end.

Lemma classify_color u : snd (classify u) = status_color (fst (classify u)).
Proof.
  unfold classify.
  destruct (Qgt_bool u 100); [|destruct (Qgt_bool u 80)]; reflexivity.
Qed.

(** In a successful view, the bar of each case is coloured after the status
    of its data item: red for Error, orange for Warning, green for Success;
    the bar height is the unity check shown in the data item. *)
Theorem bar_color_matches_status sheet p s r k it :
  run_view sheet p = (s, inr r) ->
  nth_error (data r) k = Some it ->
  nth_error (fig_color r) k = Some (status_color (item_status it)) /\
  nth_error (fig_y r) k = Some (item_value it) /\
  item_status it = sub_status it.
Proof.
  intros H Hk.
  destruct (view_ok _ _ _ _ H) as [_ [Ld [_ [_ [_ K]]]]].
  assert (Hlt : (k < length (cases p))%nat).
  { rewrite <- Ld. apply nth_error_Some. rewrite Hk. discriminate. }
  destruct (nth_error (cases p) k) as [c|] eqn:Hc;
    [|apply nth_error_None in Hc; lia].
  destruct (K k c Hc) as [it' [u [col [t1 [t2 [E [D [Y [C _]]]]]]]]].
  rewrite Hk in D. injection D as <-.
  apply evaluate_case_inv in E. destruct E as [m [mass [_ [_ [Hg ->]]]]].
  injection Hg as -> ->. cbn [item_status item_value sub_status].
  rewrite C, Y, classify_color. auto.
Qed.

Lemma bar_color_matches_status_witness :
  exists s r it,
    run_view (fun v d => inr (v * d)) (mk_params five_cases false) = (s, inr r) /\
    nth_error (data r) 1 = Some it /\
    nth_error (fig_color r) 1 = Some (status_color (item_status it)).
Proof.
  destruct (run_view (fun v d => inr (v * d)) (mk_params five_cases false))
    as [s [e|r]] eqn:R; [vm_compute in R; discriminate R|].
  destruct (nth_error (data r) 1) as [it|] eqn:D.
  - exists s, r, it. split; [reflexivity|]. split; [exact D|].
    exact (proj1 (bar_color_matches_status _ _ _ _ _ _ R D)).
  - vm_compute in R. injection R as _ <-. discriminate D.
Defined.
